(** * QR view: a shallow embedding of [src/pages/Home.tsx]

    The page is one React component.  Its state is two [useState] cells
    ([inputText], [isGenerating]), the value returned by the [useDebounce]
    hook and one DOM ref.  Event handlers are modelled in a small
    state-and-exception monad over that state, the browser capabilities
    (clipboard, canvas serialisation, notifications, anchor download) are
    recorded as a log of the calls made to them, the QR library is a
    capability that may refuse a text, and time is a clock in milliseconds
    advanced one tick at a time. *)

From Stdlib Require Import List String Ascii NArith Arith Bool Lia.
Import ListNotations.

Set Implicit Arguments.

(** ** JavaScript strings *)

Module Js.

(** A JavaScript string is a sequence of UTF-16 code units. *)
Definition jsstring := list N.

Definition of_ascii (s : string) : jsstring :=
  map N_of_ascii (list_ascii_of_string s).

(** [WhiteSpace] and [LineTerminator] of ECMAScript, the code points
    that [String.prototype.trim] strips.  All of them are in the basic
    plane, so each is one code unit. *)
Definition isWhiteSpace (c : N) : bool :=
  ((c =? 0x0009) || (c =? 0x000A) || (c =? 0x000B) || (c =? 0x000C)
   || (c =? 0x000D) || (c =? 0x0020) || (c =? 0x00A0) || (c =? 0x1680)
   || ((0x2000 <=? c) && (c <=? 0x200A))
   || (c =? 0x2028) || (c =? 0x2029) || (c =? 0x202F) || (c =? 0x205F)
   || (c =? 0x3000) || (c =? 0xFEFF))%N.

Fixpoint trimStart (s : jsstring) : jsstring :=
  match s with
  | [] => []
  | c :: rest => if isWhiteSpace c then trimStart rest else s
  end.

Definition trimEnd (s : jsstring) : jsstring := rev (trimStart (rev s)).

Definition trim (s : jsstring) : jsstring := trimEnd (trimStart s).

(** [ToBoolean] on a string: only the empty string is falsy. *)
Definition truthy (s : jsstring) : bool :=
  match s with
  | [] => false
  | _ :: _ => true
  end.

Definition eq_dec (a b : jsstring) : {a = b} + {a <> b} :=
  list_eq_dec N.eq_dec a b.

Definition isHighSurrogate (c : N) : bool :=
  ((0xD800 <=? c) && (c <=? 0xDBFF))%N.

Definition isLowSurrogate (c : N) : bool :=
  ((0xDC00 <=? c) && (c <=? 0xDFFF))%N.

(** The number of bytes of the UTF-8 encoding of a string; a surrogate
    that is not part of a pair has none. *)
Fixpoint utf8_length (s : jsstring) : option nat :=
  match s with
  | [] => Some 0
  | c :: rest =>
      if (c <? 0x80)%N then option_map (Nat.add 1) (utf8_length rest)
      else if (c <? 0x800)%N then option_map (Nat.add 2) (utf8_length rest)
      else if isHighSurrogate c then
        match rest with
        | low :: rest' =>
            if isLowSurrogate low then
              option_map (Nat.add 4) (utf8_length rest')
            else None
        | [] => None
        end
      else if isLowSurrogate c then None
      else option_map (Nat.add 3) (utf8_length rest)
  end.

End Js.

Import Js.

(** ** The rendered view *)

(** The props of the [QRCode] element of [qrcode.react]. *)
Inductive Level := Level_L | Level_M | Level_Q | Level_H.

Record QRCodeProps := {
  value : jsstring;
  size : nat;
  level : Level;
  includeMargin : bool;
  bgColor : string;
  fgColor : string
}.

(** The canvas that the [QRCode] element draws, when it draws one, is
    determined by its props. *)
Definition Canvas := QRCodeProps.

(** What the element carrying [qrCodeRef] contains in the JSX of [Home]:
    the spinner or the [QRCode] element with its props. *)
Inductive QrSlot :=
| Spinner
| QRCode (props : QRCodeProps).

(** The QR display area: the container [div] with the ref, or the
    placeholder box. *)
Inductive QrArea :=
| QrContainer (child : QrSlot)
| Placeholder.

Record View := {
  textarea_value : jsstring;
  clearButton : bool;
  qrArea : QrArea;
  actionButtons : bool
}.

(** The JSX returned by [Home], reduced to the parts that depend on state:
    the tree of elements, before the [QRCode] element has drawn anything
    (see [render_error] for what happens when it cannot). *)
Definition render (inputText debouncedText : jsstring) (isGenerating : bool)
  : View :=
  {| textarea_value := inputText;
     clearButton := truthy inputText;
     qrArea :=
       if truthy (trim debouncedText) then
         QrContainer
           (if isGenerating then Spinner
            else QRCode {| value := debouncedText;
                           size := 200;
                           level := Level_H;
                           includeMargin := true;
                           bgColor := "#ffffff";
                           fgColor := "#000000" |})
       else Placeholder;
     actionButtons := truthy (trim debouncedText) |}.

(** [qrCodeRef.current]: the container [div], when the JSX has it. *)
Definition qrCodeRef_current (v : View) : option QrSlot :=
  match qrArea v with
  | QrContainer child => Some child
  | Placeholder => None
  end.

(** ** The debounce hook *)

Module UseDebounce.

(** Modelled from the spec: the hook [useDebounce] ([@/hooks/useDebounce])
    is not among the sources.  Its state is the published (debounced)
    value and the single slot of the pending publication: the time it
    is due and the value it will publish.  [published] is a ghost log
    of every publication, oldest first. *)
Record t := {
  debounced : jsstring;
  pending : option (nat * jsstring);
  published : list jsstring
}.

(** Modelled from the spec: at mount the debounced text is the input
    text of that moment and nothing is scheduled. *)
Definition init (value : jsstring) : t :=
  {| debounced := value; pending := None; published := [] |}.

(** Modelled from the spec: when the observed input changes, "the
    pending publication is cancelled and a new quiet-period timer
    starts"; only the most recent value is ever scheduled. *)
Definition observe (now delay : nat) (value : jsstring) (d : t) : t :=
  {| debounced := debounced d;
     pending := Some (now + delay, value);
     published := published d |}.

(** Modelled from the spec: once the input has been unchanged for the
    quiet period the timer fires and publishes the scheduled value. *)
Definition expire (now : nat) (d : t) : t :=
  match pending d with
  | Some (due, v) =>
      if due <=? now then
        {| debounced := v; pending := None;
           published := published d ++ [v] |}
      else d
  | None => d
  end.

End UseDebounce.

(** ** Component state *)

Record Home := {
  now : nat;                         (* the clock, in milliseconds *)
  inputText : jsstring;              (* useState('') *)
  isGenerating : bool;               (* useState(false) *)
  generationTimer : option nat;      (* the 200ms timer of lines 21-23 *)
  debounce : UseDebounce.t           (* useDebounce(inputText, 800) *)
}.

Definition debouncedText (st : Home) : jsstring :=
  UseDebounce.debounced (debounce st).

Definition view (st : Home) : View :=
  render (inputText st) (debouncedText st) (isGenerating st).

Definition set_inputText (v : jsstring) (st : Home) : Home :=
  {| now := now st; inputText := v; isGenerating := isGenerating st;
     generationTimer := generationTimer st; debounce := debounce st |}.

Definition set_isGenerating (b : bool) (st : Home) : Home :=
  {| now := now st; inputText := inputText st; isGenerating := b;
     generationTimer := generationTimer st; debounce := debounce st |}.

Definition set_generationTimer (t : option nat) (st : Home) : Home :=
  {| now := now st; inputText := inputText st;
     isGenerating := isGenerating st;
     generationTimer := t; debounce := debounce st |}.

Definition set_debounce (d : UseDebounce.t) (st : Home) : Home :=
  {| now := now st; inputText := inputText st;
     isGenerating := isGenerating st;
     generationTimer := generationTimer st; debounce := d |}.

Definition set_now (t : nat) (st : Home) : Home :=
  {| now := t; inputText := inputText st; isGenerating := isGenerating st;
     generationTimer := generationTimer st; debounce := debounce st |}.

(** ** Browser capabilities *)

Record Blob := { blob_type : string; blob_source : Canvas }.

Record ClipboardItem := { item_type : string; item_blob : Blob }.

Inductive Url := DataURL (canvas : Canvas) (type : string).

Record Anchor := { download : string; href : Url }.

Inductive Exn := TypeError | NotAllowedError | RangeError | URIError.

(** The calls made to the outside, in the order they are made. *)
Inductive Effect :=
| Toast (message : string)
| PreventDefault
| CanvasToBlob (canvas : Canvas)
| CanvasToDataURL (canvas : Canvas) (type : string)
| ClipboardWrite (items : list ClipboardItem)
| AnchorClick (link : Anchor)
| Unhandled (e : Exn).

Inductive ClipboardStatus := Granted | Denied | Unsupported.

(** What lies outside the page: whether the clipboard accepts a write,
    whether a canvas can be serialised ([toBlob] hands [null] to its
    callback when it cannot), and the QR library, [qrcode.react]: the
    error its [QRCode] element throws on the given props, if any (a text
    beyond the capacity of the level, a text it cannot convert). *)
Record Env := {
  clipboard : ClipboardStatus;
  encodes : Canvas -> bool;
  encoder : QRCodeProps -> option Exn
}.

(** Rendering the tree of [Home]: the [QRCode] element, when it is in the
    tree, throws what the library throws on its props.  [Home] has no
    error boundary, so an error here unmounts the page. *)
Definition render_error (env : Env) (v : View) : option Exn :=
  match qrArea v with
  | QrContainer (QRCode props) => encoder env props
  | QrContainer Spinner | Placeholder => None
  end.

(** [container.querySelector('canvas')]: the canvas is there when the
    [QRCode] element is and has drawn. *)
Definition querySelector_canvas (env : Env) (container : QrSlot)
  : option Canvas :=
  match container with
  | QRCode props =>
      match encoder env props with
      | None => Some props
      | Some _ => None
      end
  | Spinner => None
  end.

(** [qrCodeRef.current?.querySelector('canvas')]. *)
Definition find_canvas (env : Env) (v : View) : option Canvas :=
  match qrCodeRef_current v with
  | Some container => querySelector_canvas env container
  | None => None
  end.

(** A callback queued by [canvas.toBlob]; the page has one, the arrow
    function of lines 56-62. *)
Inductive Task := BlobCallback (blob : option Blob).

Record World := {
  home : Home;
  log : list Effect;
  queue : list Task
}.

(** ** The handler monad: state and exceptions *)

Inductive Result (A : Type) :=
| Ok (a : A)
| Throw (e : Exn).

Arguments Ok {A} a.
Arguments Throw {A} e.

Definition Handler (A : Type) : Type := World -> Result A * World.

Definition ret {A} (a : A) : Handler A := fun w => (Ok a, w).

Definition bind {A B} (m : Handler A) (k : A -> Handler B) : Handler B :=
  fun w =>
    match m w with
    | (Ok a, w') => k a w'
    | (Throw e, w') => (Throw e, w')
    end.

Definition throw {A} (e : Exn) : Handler A := fun w => (Throw e, w).

Definition try_catch {A} (body : Handler A) (handler : Exn -> Handler A)
  : Handler A :=
  fun w =>
    match body w with
    | (Ok a, w') => (Ok a, w')
    | (Throw e, w') => handler e w'
    end.

Declare Scope handler_scope.
Delimit Scope handler_scope with handler.
Notation "x <- m ;; k" := (bind m (fun x => k))
  (at level 61, m at next level, right associativity) : handler_scope.
Notation "m ;; k" := (bind m (fun _ => k))
  (at level 61, right associativity) : handler_scope.
Open Scope handler_scope.

Definition get_home : Handler Home := fun w => (Ok (home w), w).

Definition modify_home (f : Home -> Home) : Handler unit :=
  fun w => (Ok tt, {| home := f (home w); log := log w; queue := queue w |}).

Definition emit (e : Effect) : Handler unit :=
  fun w => (Ok tt, {| home := home w; log := log w ++ [e]; queue := queue w |}).

Definition enqueue (t : Task) : Handler unit :=
  fun w => (Ok tt, {| home := home w; log := log w; queue := queue w ++ [t] |}).

(** ** React state setters and the render they cause *)

(** A render of [Home] with a new [inputText]: line 13 hands the input to
    the debounce hook with a quiet period of 800ms.  The function given to
    [useState] at line 16 is an initial-state function: React calls it at
    mount only, so a later render does not run it. *)
Definition rerender (st : Home) : Home :=
  set_debounce (UseDebounce.observe (now st) 800 (inputText st) (debounce st))
               st.

(** What [setInputText(v)] does to the state: React keeps the state and
    skips the render when the new value is the same as the current one. *)
Definition input_set (v : jsstring) (st : Home) : Home :=
  if eq_dec v (inputText st) then st else rerender (set_inputText v st).

Definition setInputText (v : jsstring) : Handler unit :=
  modify_home (input_set v).

(** The body of the function passed to [useState] at lines 16-27. *)
Definition generation_initializer (st : Home) : Home :=
  if truthy (trim (debouncedText st)) then
    set_generationTimer (Some (now st + 200)) (set_isGenerating true st)
  else st.

(** The first render: [useState('')], [useState(false)], the hook on the
    initial input, then the initial-state function of line 16. *)
Definition mount : Home :=
  generation_initializer
    {| now := 0;
       inputText := [];
       isGenerating := false;
       generationTimer := None;
       debounce := UseDebounce.init [] |}.

(** ** Event handlers *)

Definition toast (message : string) : Handler unit := emit (Toast message).

(** [handleInputChange], lines 30-32. *)
Definition handleInputChange (target_value : jsstring) : Handler unit :=
  setInputText target_value.

(** [handleKeyDown], lines 35-41. *)
Definition handleKeyDown (ctrlKey : bool) (key : string) : Handler unit :=
  if ctrlKey && String.eqb key "Enter" then
    emit PreventDefault ;;
    setInputText []
  else ret tt.

(** The [onClick] of the clear button, line 105. *)
Definition handleClear : Handler unit := setInputText [].

(** [canvas.toBlob(callback)]: serialises to PNG (the default type) and
    queues the callback with the blob, or with [null]. *)
Definition canvas_toBlob (env : Env) (canvas : Canvas) : Handler unit :=
  emit (CanvasToBlob canvas) ;;
  enqueue (BlobCallback
             (if encodes env canvas then
                Some {| blob_type := "image/png"; blob_source := canvas |}
              else None)).

(** [navigator.clipboard.write(items)], awaited.  Without the API,
    [navigator.clipboard] is [undefined] and the member access throws;
    with it, the write is attempted and the promise rejects when the
    permission is refused. *)
Definition navigator_clipboard_write (env : Env) (items : list ClipboardItem)
  : Handler unit :=
  match clipboard env with
  | Unsupported => throw TypeError
  | Denied => emit (ClipboardWrite items) ;; throw NotAllowedError
  | Granted => emit (ClipboardWrite items)
  end.

(** The async callback given to [toBlob], lines 56-62. *)
Definition blobCallback (env : Env) (blob : option Blob) : Handler unit :=
  match blob with
  | None => ret tt
  | Some b =>
      navigator_clipboard_write env
        [ {| item_type := "image/png"; item_blob := b |} ] ;;
      toast "二维码已复制到剪贴板"
  end.

(** [handleCopyQRCode], lines 44-66.  The [try] block covers the lookup of
    the canvas and the call of [toBlob], neither of which throws on the
    canvas of [QRCode]; the callback runs later, from the task queue, when
    the block has been left. *)
Definition handleCopyQRCode (env : Env) : Handler unit :=
  st <- get_home ;;
  if negb (truthy (trim (debouncedText st))) then
    toast "请先输入内容生成二维码"
  else
    try_catch
      (match find_canvas env (view st) with
       | None => ret tt
       | Some canvas => canvas_toBlob env canvas
       end)
      (fun error => toast "复制失败，请右键保存二维码").

(** The [onClick] of the download button, lines 202-211. *)
Definition handleDownload (env : Env) : Handler unit :=
  st <- get_home ;;
  match find_canvas env (view st) with
  | Some canvas =>
      emit (CanvasToDataURL canvas "image/png") ;;
      emit (AnchorClick {| download := "qrcode.png";
                           href := DataURL canvas "image/png" |})
  | None => ret tt
  end.

(** ** Running a handler *)

(** Nothing awaits or catches what a handler or a queued callback returns:
    an exception that leaves it is reported as unhandled. *)
Definition detached (body : Handler unit) (w : World) : World :=
  match body w with
  | (Ok _, w') => w'
  | (Throw e, w') => snd (emit (Unhandled e) w')
  end.

Definition run_task (env : Env) (w : World) (t : Task) : World :=
  match t with
  | BlobCallback blob => detached (blobCallback env blob) w
  end.

(** The queued callbacks run in order; the page's one callback queues
    nothing itself. *)
Definition event_loop (env : Env) (w : World) : World :=
  fold_left (run_task env) (queue w)
            {| home := home w; log := log w; queue := [] |}.

(** One user action: the handler runs on the current state, then the
    callbacks it queued.  The result is the new state and the calls made. *)
Definition dispatch (env : Env) (h : Handler unit) (st : Home)
  : Home * list Effect :=
  let w := event_loop env (detached h {| home := st; log := []; queue := [] |})
  in (home w, log w).

Definition copyAction (env : Env) (st : Home) : Home * list Effect :=
  dispatch env (handleCopyQRCode env) st.

Definition downloadAction (env : Env) (st : Home) : Home * list Effect :=
  dispatch env (handleDownload env) st.

(** ** Timers *)

Definition fire_debounce (st : Home) : Home :=
  set_debounce (UseDebounce.expire (now st) (debounce st)) st.

(** The callback of [setTimeout(..., 200)], lines 21-23. *)
Definition fire_generation (st : Home) : Home :=
  match generationTimer st with
  | Some due =>
      if due <=? now st then
        set_generationTimer None (set_isGenerating false st)
      else st
  | None => st
  end.

(** One millisecond passes and the timers that are due fire. *)
Definition tick (st : Home) : Home :=
  fire_generation (fire_debounce (set_now (S (now st)) st)).

Fixpoint elapse (ms : nat) (st : Home) : Home :=
  match ms with
  | 0 => st
  | S k => elapse k (tick st)
  end.

(** Time passing on the page: after each tick React renders the state;
    when the render throws the page is unmounted, its timers are cleared
    and the state stays as it was at that moment. *)
Fixpoint pass (env : Env) (ms : nat) (st : Home) : Home :=
  match ms with
  | 0 => st
  | S k =>
      match render_error env (view (tick st)) with
      | None => pass env k (tick st)
      | Some _ => tick st
      end
  end.

(** ** The page as a machine *)

Inductive Event :=
| Change (target_value : jsstring)
| KeyDown (ctrlKey : bool) (key : string)
| ClickClear
| ClickQr
| ClickCopy
| ClickDownload
| Elapse (ms : nat).

(** One event on the page that is up in state [st].  A click reaches a
    handler only when the control is in the view. *)
Definition step (env : Env) (st : Home) (ev : Event) : Home * list Effect :=
  match ev with
  | Change v => dispatch env (handleInputChange v) st
  | KeyDown ctrlKey key => dispatch env (handleKeyDown ctrlKey key) st
  | ClickClear =>
      if clearButton (view st) then dispatch env handleClear st else (st, [])
  | ClickQr =>
      match qrCodeRef_current (view st) with
      | Some _ => copyAction env st
      | None => (st, [])
      end
  | ClickCopy =>
      if actionButtons (view st) then copyAction env st else (st, [])
  | ClickDownload =>
      if actionButtons (view st) then downloadAction env st else (st, [])
  | Elapse ms => (pass env ms st, [])
  end.

(** A sequence of events on the page that is up in state [st].  After
    each event the new state is rendered; when that throws, the error is
    uncaught, the page is unmounted and no later event reaches it. *)
Fixpoint run (env : Env) (st : Home) (evs : list Event)
  : Home * list Effect :=
  match evs with
  | [] => (st, [])
  | ev :: rest =>
      let (st1, log1) := step env st ev in
      match render_error env (view st1) with
      | Some e => (st1, log1 ++ [Unhandled e])
      | None =>
          let (st2, log2) := run env st1 rest in
          (st2, log1 ++ log2)
      end
  end.

(** ** A sample browser *)

(** The most bytes a QR code holds at each error-correction level
    (version 40, byte mode). *)
Definition capacity (l : Level) : nat :=
  match l with
  | Level_L => 2953
  | Level_M => 2331
  | Level_Q => 1663
  | Level_H => 1273
  end.

(** A QR library that encodes the UTF-8 bytes of the value in byte mode:
    it refuses a text it cannot convert and a text beyond the capacity of
    the level. *)
Definition byte_mode_encoder (props : QRCodeProps) : option Exn :=
  match utf8_length (value props) with
  | None => Some URIError
  | Some n => if n <=? capacity (level props) then None else Some RangeError
  end.

(** A browser that serialises every canvas, with the given clipboard and
    the byte-mode QR library. *)
Definition browser (c : ClipboardStatus) : Env :=
  {| clipboard := c;
     encodes := fun _ => true;
     encoder := byte_mode_encoder |}.

(** The timeline of publications of the debounce stage. *)
Definition publications (st : Home) : list jsstring :=
  UseDebounce.published (debounce st).

(** Classification of the calls in a log. *)
Definition is_toast (e : Effect) : bool :=
  match e with Toast _ => true | _ => false end.

Definition is_clipboard_write (e : Effect) : bool :=
  match e with ClipboardWrite _ => true | _ => false end.

Definition is_save (e : Effect) : bool :=
  match e with AnchorClick _ => true | _ => false end.

(** The clipboard item built at line 59 from the blob of a canvas. *)
Definition png_item (canvas : Canvas) : ClipboardItem :=
  {| item_type := "image/png";
     item_blob := {| blob_type := "image/png"; blob_source := canvas |} |}.

(** ** Notions used in the statements *)

(** The calls of the copy action, by the state and the browser it runs
    in. *)
Definition copy_log (env : Env) (st : Home) : list Effect :=
  if truthy (trim (debouncedText st)) then
    match find_canvas env (view st) with
    | None => []
    | Some canvas =>
        CanvasToBlob canvas ::
        (if encodes env canvas then
           match clipboard env with
           | Granted => [ClipboardWrite [png_item canvas];
                         Toast "二维码已复制到剪贴板"]
           | Denied => [ClipboardWrite [png_item canvas];
                        Unhandled NotAllowedError]
           | Unsupported => [Unhandled TypeError]
           end
         else [])
    end
  else [Toast "请先输入内容生成二维码"].

(** The calls of the download action, by the state and the browser it
    runs in. *)
Definition download_log (env : Env) (st : Home) : list Effect :=
  match find_canvas env (view st) with
  | Some canvas =>
      [CanvasToDataURL canvas "image/png";
       AnchorClick {| download := "qrcode.png";
                      href := DataURL canvas "image/png" |}]
  | None => []
  end.

(** Empty or made of whitespace only. *)
Definition blank (s : jsstring) : bool := forallb isWhiteSpace s.

(** The single slot of the debounce stage always holds the current input,
    due within the quiet period; with the slot empty the debounced text
    has caught up with the input. *)
Definition debounce_inv (st : Home) : Prop :=
  match UseDebounce.pending (debounce st) with
  | None => debouncedText st = inputText st
  | Some (due, v) => v = inputText st /\ now st < due <= now st + 800
  end.

(** The generation flag is down and its timer is not running. *)
Definition generation_idle (st : Home) : Prop :=
  isGenerating st = false /\ generationTimer st = None.

(** The props that line 167-174 give the [QRCode] element for a text. *)
Definition qr_of (text : jsstring) : QRCodeProps :=
  {| value := text; size := 200; level := Level_H; includeMargin := true;
     bgColor := "#ffffff"; fgColor := "#000000" |}.

(** A text for which every render succeeds, whatever the flag: it is
    blank, or the QR library accepts it with the props of [Home]. *)
Definition displayable (env : Env) (text : jsstring) : bool :=
  blank text ||
  match encoder env (qr_of text) with
  | None => true
  | Some _ => false
  end.

(** A state in which no render error can stop the debounce stage short:
    the text on display is displayable, or nothing is pending. *)
Definition debounce_safe (env : Env) (st : Home) : Prop :=
  displayable env (debouncedText st) = true
  \/ UseDebounce.pending (debounce st) = None.

(** A text of 1274 letters, one byte more than a QR code holds at
    level H. *)
Definition long_text : jsstring := repeat 97%N 1274.

(** The page after the user typed [s] and then left it alone for the
    quiet period. *)
Definition after_typing (s : string) : Home :=
  fst (run (browser Granted) mount [Change (of_ascii s); Elapse 800]).

(** A state in which the spinner is on display: what the page would be
    in had the flag been raised for [s]. *)
Definition generating (s : string) : Home :=
  set_isGenerating true (after_typing s).

(** The events that leave the input alone: clicks on the export controls
    and the passing of time. *)
Definition quiet (ev : Event) : bool :=
  match ev with
  | ClickQr | ClickCopy | ClickDownload | Elapse _ => true
  | Change _ | KeyDown _ _ | ClickClear => false
  end.

(** The time that passes during a sequence of events. *)
Fixpoint duration (evs : list Event) : nat :=
  match evs with
  | [] => 0
  | Elapse ms :: rest => ms + duration rest
  | _ :: rest => duration rest
  end.

(** The calls that belong to copying and to downloading. *)
Definition copy_call (e : Effect) : bool :=
  match e with
  | Toast _ | CanvasToBlob _ | ClipboardWrite _ | Unhandled _ => true
  | _ => false
  end.

Definition download_call (e : Effect) : bool :=
  match e with
  | CanvasToDataURL _ _ | AnchorClick _ => true
  | _ => false
  end.

(** ** Start-up ([src/main.tsx]) *)

(** [classList.add(token)]: the tokens of a class list are a set kept in
    order; a token that is already there is not added again. *)
Definition classList_add (token : string) (classList : list string)
  : list string :=
  if existsb (String.eqb token) classList then classList
  else classList ++ [token].

(** Lines 9-12 of [main.tsx], on the class list of the root element:
    [prefersDarkMode] is what the media query (prefers-color-scheme: dark)
    answers. *)
Definition applyDarkMode (prefersDarkMode : bool) (classList : list string)
  : list string :=
  if prefersDarkMode then classList_add "dark" classList else classList.

(** The notice of line 61. *)
Definition is_success (e : Effect) : bool :=
  match e with
  | Toast message => String.eqb message "二维码已复制到剪贴板"
  | _ => false
  end.

Definition is_unhandled (e : Effect) : bool :=
  match e with Unhandled _ => true | _ => false end.

(** The two ways of clearing: the shortcut of line 37 and the control of
    line 105. *)
Definition clears (ev : Event) : Prop :=
  ev = KeyDown true "Enter" \/ ev = ClickClear.

(** * Properties *)

(** ** The task queue *)

Lemma queue_run_task env w t : queue (run_task env w t) = queue w.
Proof.
  destruct t as [[b |]]; unfold run_task, detached, blobCallback; simpl;
    [| reflexivity].
  unfold bind, navigator_clipboard_write.
  destruct (clipboard env); reflexivity.
Qed.

(** The callbacks queue nothing, so one pass over the queue empties it. *)
Lemma event_loop_drains env w : queue (event_loop env w) = [].
Proof.
  unfold event_loop.
  generalize {| home := home w; log := log w; queue := [] |},
    (eq_refl : queue {| home := home w; log := log w; queue := [] |} = []).
  induction (queue w) as [| t ts IH]; intros w0 Hw0; simpl; [exact Hw0 |].
  apply IH. rewrite queue_run_task. exact Hw0.
Qed.

(** ** The two export actions, case by case *)

Lemma copyAction_unfold env st : copyAction env st = (st, copy_log env st).
Proof.
  unfold copyAction, copy_log, dispatch, handleCopyQRCode, detached, bind,
    get_home; simpl.
  destruct (truthy (trim (debouncedText st))); simpl; [| destruct st; reflexivity].
  unfold try_catch.
  destruct (find_canvas env (view st)) as [canvas |]; simpl;
    [| destruct st; reflexivity].
  unfold event_loop; simpl.
  destruct (encodes env canvas); simpl; [| destruct st; reflexivity].
  unfold detached, bind, navigator_clipboard_write.
  destruct (clipboard env); destruct st; reflexivity.
Qed.

Lemma downloadAction_unfold env st :
  downloadAction env st = (st, download_log env st).
Proof.
  unfold downloadAction, download_log, dispatch, handleDownload, detached,
    bind, get_home; simpl.
  destruct (find_canvas env (view st)); destruct st; reflexivity.
Qed.

(** A canvas is found only when the text has content, the generation
    flag is down and the QR library has accepted the props. *)
Lemma find_canvas_Some env st canvas :
  find_canvas env (view st) = Some canvas ->
  truthy (trim (debouncedText st)) = true /\ isGenerating st = false.
Proof.
  unfold find_canvas, qrCodeRef_current, view, render; simpl.
  destruct (truthy (trim (debouncedText st))); [| discriminate].
  destruct (isGenerating st); [discriminate | auto].
Qed.

Lemma truthy_trim_nonempty s : truthy (trim s) = true -> s <> [].
Proof. intros Ht ->. discriminate Ht. Qed.

(** ** Input handlers on the state *)

Lemma dispatch_setInputText env v st :
  dispatch env (setInputText v) st = (input_set v st, []).
Proof. reflexivity. Qed.

Lemma step_Change env v st : step env st (Change v) = (input_set v st, []).
Proof. reflexivity. Qed.

Lemma step_ctrl_enter env st :
  step env st (KeyDown true "Enter") = (input_set [] st, [PreventDefault]).
Proof. reflexivity. Qed.

Lemma step_KeyDown_state env ctrlKey key st :
  fst (step env st (KeyDown ctrlKey key)) = st \/
  fst (step env st (KeyDown ctrlKey key)) = input_set [] st.
Proof.
  simpl. unfold handleKeyDown.
  destruct (ctrlKey && String.eqb key "Enter"); [right | left]; reflexivity.
Qed.

Lemma step_ClickClear_state env st :
  fst (step env st ClickClear) = input_set [] st.
Proof.
  unfold step, handleClear. rewrite dispatch_setInputText.
  unfold view, render, input_set; simpl.
  destruct (inputText st) as [| c rest]; simpl; [| reflexivity].
  destruct (eq_dec [] []) as [_ | Hne]; [reflexivity | contradiction].
Qed.

Lemma inputText_input_set v st : inputText (input_set v st) = v.
Proof.
  unfold input_set. destruct (eq_dec v (inputText st)) as [-> |]; reflexivity.
Qed.

(** ** One tick and many *)

(** The generation timer touches neither the clock, the input nor the
    debounce stage: go through its cases. *)
Ltac through_generation_timer st :=
  unfold tick, fire_generation, fire_debounce; simpl;
  destruct (generationTimer st) as [due |]; [| reflexivity];
  destruct (due <=? S (now st)); reflexivity.

Lemma now_tick st : now (tick st) = S (now st).
Proof. through_generation_timer st. Qed.

Lemma inputText_tick st : inputText (tick st) = inputText st.
Proof. through_generation_timer st. Qed.

Lemma debounce_tick st :
  debounce (tick st) = UseDebounce.expire (S (now st)) (debounce st).
Proof. through_generation_timer st. Qed.

Lemma now_elapse n : forall st, now (elapse n st) = now st + n.
Proof.
  induction n as [| n IH]; intros st; simpl.
  - lia.
  - rewrite IH, now_tick. lia.
Qed.

Lemma inputText_elapse n : forall st, inputText (elapse n st) = inputText st.
Proof.
  induction n as [| n IH]; intros st; simpl.
  - reflexivity.
  - rewrite IH. apply inputText_tick.
Qed.

Lemma elapse_add n m st : elapse (n + m) st = elapse m (elapse n st).
Proof.
  revert st. induction n as [| n IH]; intros st; simpl; [reflexivity | apply IH].
Qed.

(** With nothing scheduled the debounce stage stays as it is. *)
Lemma debounce_elapse_idle n : forall st,
  UseDebounce.pending (debounce st) = None ->
  debounce (elapse n st) = debounce st.
Proof.
  induction n as [| n IH]; intros st Hp; simpl; [reflexivity |].
  assert (Ht : debounce (tick st) = debounce st).
  { rewrite debounce_tick. unfold UseDebounce.expire. rewrite Hp. reflexivity. }
  rewrite IH; rewrite Ht; auto.
Qed.

(** Before the timer is due nothing is published. *)
Lemma debounce_elapse_before n : forall st due v,
  UseDebounce.pending (debounce st) = Some (due, v) ->
  now st + n < due ->
  debounce (elapse n st) = debounce st.
Proof.
  induction n as [| n IH]; intros st due v Hp Hlt; simpl; [reflexivity |].
  assert (Ht : debounce (tick st) = debounce st).
  { rewrite debounce_tick. unfold UseDebounce.expire. rewrite Hp.
    destruct (Nat.leb_spec due (S (now st))); [lia | reflexivity]. }
  rewrite (IH (tick st) due v); rewrite ?Ht, ?now_tick; auto; lia.
Qed.

(** Once the timer is due the scheduled value has been published, once. *)
Lemma debounce_elapse_after n : forall st due v,
  UseDebounce.pending (debounce st) = Some (due, v) ->
  now st < due -> due <= now st + n ->
  debounce (elapse n st) =
    {| UseDebounce.debounced := v;
       UseDebounce.pending := None;
       UseDebounce.published := UseDebounce.published (debounce st) ++ [v] |}.
Proof.
  induction n as [| n IH]; intros st due v Hp Hlt Hle; simpl; [lia |].
  destruct (Nat.leb_spec due (S (now st))) as [Hdue | Hnot].
  - rewrite debounce_elapse_idle; rewrite debounce_tick;
      unfold UseDebounce.expire; rewrite Hp;
      destruct (Nat.leb_spec due (S (now st))); try lia; reflexivity.
  - assert (Ht : debounce (tick st) = debounce st).
    { rewrite debounce_tick. unfold UseDebounce.expire. rewrite Hp.
      destruct (Nat.leb_spec due (S (now st))); [lia | reflexivity]. }
    rewrite (IH (tick st) due v); rewrite ?Ht, ?now_tick; auto; lia.
Qed.

(** ** Invariants of the page *)

Lemma debounce_inv_input_set v st :
  debounce_inv st -> debounce_inv (input_set v st).
Proof.
  unfold input_set. destruct (eq_dec v (inputText st)); [trivial |].
  intros _. unfold debounce_inv; simpl. split; [reflexivity | lia].
Qed.

Lemma debounce_inv_tick st : debounce_inv st -> debounce_inv (tick st).
Proof.
  unfold debounce_inv, debouncedText.
  rewrite debounce_tick, inputText_tick, now_tick.
  unfold UseDebounce.expire.
  destruct (UseDebounce.pending (debounce st)) as [[due v] |] eqn:Hp.
  - intros [Hv Hdue].
    destruct (Nat.leb_spec due (S (now st))); simpl.
    + exact Hv.
    + rewrite Hp. split; [exact Hv | lia].
  - rewrite Hp. trivial.
Qed.

Lemma debounce_inv_elapse n : forall st,
  debounce_inv st -> debounce_inv (elapse n st).
Proof.
  induction n as [| n IH]; intros st Hinv; simpl; auto using debounce_inv_tick.
Qed.

Lemma generation_idle_input_set v st :
  generation_idle st -> generation_idle (input_set v st).
Proof.
  unfold input_set. destruct (eq_dec v (inputText st)); trivial.
Qed.

Lemma generation_idle_tick st : generation_idle st -> generation_idle (tick st).
Proof.
  unfold generation_idle, tick, fire_generation, fire_debounce; simpl.
  intros [Hg Ht]. rewrite Ht. simpl. auto.
Qed.

Section Machine.

Variable env : Env.

(** Time passes by ticks, as many as asked for or up to the one whose
    render throws. *)
Lemma pass_is_elapse n : forall st,
  exists j, j <= n /\ pass env n st = elapse j st.
Proof.
  induction n as [| n IH]; intros st; simpl.
  - exists 0. auto.
  - destruct (render_error env (view (tick st))).
    + exists 1. split; [lia | reflexivity].
    + destruct (IH (tick st)) as [j [Hj Heq]].
      exists (S j). split; [lia | exact Heq].
Qed.

(** Where no render throws on the way, all the time passes. *)
Lemma pass_rendering n : forall st,
  (forall j, j <= n -> render_error env (view (elapse j st)) = None) ->
  pass env n st = elapse n st.
Proof.
  induction n as [| n IH]; intros st Hok; simpl; [reflexivity |].
  pose proof (Hok 1 ltac:(lia)) as H1. simpl in H1. rewrite H1. apply IH.
  intros j Hj. apply (Hok (S j)). lia.
Qed.

(** When the page is still up afterwards, all the time has passed. *)
Lemma pass_up n : forall st,
  render_error env (view (pass env n st)) = None ->
  pass env n st = elapse n st.
Proof.
  induction n as [| n IH]; intros st; simpl; [reflexivity |].
  destruct (render_error env (view (tick st))) eqn:Herr.
  - rewrite Herr. discriminate.
  - apply IH.
Qed.

Lemma pass_preserves (P : Home -> Prop) :
  (forall st, P st -> P (tick st)) ->
  forall n st, P st -> P (pass env n st).
Proof.
  intros Htick n st HP. destruct (pass_is_elapse n st) as [j [_ ->]].
  revert st HP. induction j as [| j IH]; intros st HP; simpl; auto.
Qed.


Lemma step_preserves (P : Home -> Prop) :
  (forall v st, P st -> P (input_set v st)) ->
  (forall st, P st -> P (tick st)) ->
  forall st ev, P st -> P (fst (step env st ev)).
Proof.
  intros Hset Htick st ev HP.
  destruct ev as [v | ctrlKey key | | | | | ms].
  - rewrite step_Change. simpl. auto.
  - destruct (step_KeyDown_state env ctrlKey key st) as [-> | ->]; auto.
  - rewrite step_ClickClear_state. auto.
  - simpl. destruct (qrCodeRef_current (view st)); [| exact HP].
    rewrite copyAction_unfold. exact HP.
  - simpl. destruct (truthy (trim (debouncedText st))); [| exact HP].
    rewrite copyAction_unfold. exact HP.
  - simpl. destruct (truthy (trim (debouncedText st))); [| exact HP].
    rewrite downloadAction_unfold. exact HP.
  - simpl. apply pass_preserves; assumption.
Qed.

Lemma run_cons st ev evs :
  run env st (ev :: evs) =
    match render_error env (view (fst (step env st ev))) with
    | Some e => (fst (step env st ev), snd (step env st ev) ++ [Unhandled e])
    | None =>
        (fst (run env (fst (step env st ev)) evs),
         snd (step env st ev) ++ snd (run env (fst (step env st ev)) evs))
    end.
Proof.
  simpl. destruct (step env st ev) as [st1 log1]; simpl.
  destruct (render_error env (view st1)); [reflexivity |].
  destruct (run env st1 evs); reflexivity.
Qed.

Lemma run_preserves (P : Home -> Prop) :
  (forall v st, P st -> P (input_set v st)) ->
  (forall st, P st -> P (tick st)) ->
  forall evs st, P st -> P (fst (run env st evs)).
Proof.
  intros Hset Htick evs.
  induction evs as [| ev evs IH]; intros st HP; [exact HP |].
  rewrite run_cons.
  pose proof (step_preserves P Hset Htick st ev HP) as Hstep.
  destruct (render_error env (view (fst (step env st ev)))); simpl; auto.
Qed.

(** On every run of the page the single slot of the debounce stage is
    in order. *)
Lemma run_debounce_inv evs : debounce_inv (fst (run env mount evs)).
Proof.
  apply run_preserves;
    auto using debounce_inv_input_set, debounce_inv_tick.
  reflexivity.
Qed.

Lemma run_generation_idle evs : generation_idle (fst (run env mount evs)).
Proof.
  apply run_preserves;
    auto using generation_idle_input_set, generation_idle_tick.
  split; reflexivity.
Qed.

End Machine.

(** After a quiet period the debounced text is the input text. *)
Lemma elapse_settles st n :
  debounce_inv st -> 800 <= n ->
  debounce (elapse n st) =
    match UseDebounce.pending (debounce st) with
    | None => debounce st
    | Some (_, v) =>
        {| UseDebounce.debounced := v;
           UseDebounce.pending := None;
           UseDebounce.published := publications st ++ [v] |}
    end
  /\ debouncedText (elapse n st) = inputText st.
Proof.
  unfold debounce_inv, debouncedText, publications. intros Hinv Hn.
  destruct (UseDebounce.pending (debounce st)) as [[due v] |] eqn:Hp.
  - destruct Hinv as [Hv Hdue].
    rewrite (@debounce_elapse_after n st due v) by (auto; lia).
    split; [reflexivity | exact Hv].
  - rewrite debounce_elapse_idle by exact Hp. auto.
Qed.
(** ** Blank text *)

Lemma trimStart_blank s : blank s = true -> trimStart s = [].
Proof.
  induction s as [| c rest IH]; simpl; [reflexivity |].
  destruct (isWhiteSpace c); simpl; [exact IH | discriminate].
Qed.

Lemma trimStart_snoc_nonempty l c :
  isWhiteSpace c = false -> trimStart (l ++ [c]) <> [].
Proof.
  intros Hc. induction l as [| a l IH]; simpl.
  - rewrite Hc. discriminate.
  - destruct (isWhiteSpace a); [exact IH | discriminate].
Qed.

(** The test [debouncedText.trim()] of the source fails exactly on blank
    text. *)
Lemma truthy_trim s : truthy (trim s) = negb (blank s).
Proof.
  unfold trim. induction s as [| c rest IH]; [reflexivity |].
  simpl. destruct (isWhiteSpace c) eqn:Hc; simpl; [exact IH |].
  unfold trimEnd. simpl rev.
  pose proof (@trimStart_snoc_nonempty (rev rest) c Hc) as Hne.
  destruct (trimStart (rev rest ++ [c])) as [| a l]; [contradiction |].
  simpl. destruct (rev l); reflexivity.
Qed.

(** ** Sample runs *)

Example trim_strips_both_ends : trim (of_ascii "  a b ") = of_ascii "a b".
Proof. reflexivity. Qed.

Example wide_spaces_are_blank : blank [0x3000; 0x00A0; 0x0020; 0x000A]%N = true.
Proof. reflexivity. Qed.

(** The scenario of the specification: "a", then "ab" 100ms later; 900ms
    after the first keystroke the debounced text is "ab" and this is the
    one publication there has been. *)
Example two_keystrokes_one_publication :
  let st := fst (run (browser Granted) mount
                   [Change (of_ascii "a"); Elapse 100;
                    Change (of_ascii "ab"); Elapse 800]) in
  now st = 900
  /\ debouncedText st = of_ascii "ab"
  /\ publications st = [of_ascii "ab"].
Proof. vm_compute. repeat split. Qed.

(** ** The generation flag *)

(** On every run of the page the generation flag is down and its timer
    is never started. *)
Lemma isGenerating_never_set env evs :
  isGenerating (fst (run env mount evs)) = false
  /\ generationTimer (fst (run env mount evs)) = None.
Proof. apply run_generation_idle. Qed.

(** While the flag is up the container shows the spinner. *)
Lemma spinner_while_generating st :
  truthy (trim (debouncedText st)) = true -> isGenerating st = true ->
  qrArea (view st) = QrContainer Spinner.
Proof.
  unfold view, render; simpl. intros -> ->. reflexivity.
Qed.

(** C1, evaluated on the code: the user types "a" and waits out the quiet
    period.  The debounced text goes from empty to "a", yet the generation
    flag is still false, no 200ms timer was started and the QR code is on
    display at once: the block of lines 16-27 is handed to [useState] as
    an initial-state function, which runs once at mount, when the
    debounced text is still empty. *)
Theorem C1_generation_flag_not_raised :
  let st := after_typing "a" in
  debouncedText mount = []
  /\ debouncedText st = of_ascii "a"
  /\ isGenerating st = false
  /\ generationTimer st = None
  /\ qrArea (view st) = QrContainer (QRCode (qr_of (of_ascii "a"))).
Proof. vm_compute. repeat split. Qed.

(** ** Copy *)

(** The fallback notice of the [catch] block is never shown. *)
Lemma copy_fallback_notice_never_shown env st :
  ~ In (Toast "复制失败，请右键保存二维码") (snd (copyAction env st)).
Proof.
  rewrite copyAction_unfold. unfold copy_log; simpl.
  destruct (truthy (trim (debouncedText st))).
  - destruct (find_canvas env (view st)) as [canvas |]; [| intros []].
    destruct (encodes env canvas); [destruct (clipboard env) |]; simpl;
      intuition discriminate.
  - simpl. intuition discriminate.
Qed.

(** C2, evaluated on the code: the QR code for "a" is on display and the
    clipboard refuses the write, or is not there at all.  The copy action
    shows no notice; the rejection leaves the callback of [toBlob], which
    runs after the [try] block has been left, and is unhandled. *)
Theorem C2_clipboard_failure_unhandled :
  let st := after_typing "a" in
  let canvas := qr_of (of_ascii "a") in
  copyAction (browser Denied) st =
    (st, [CanvasToBlob canvas; ClipboardWrite [png_item canvas];
          Unhandled NotAllowedError])
  /\ copyAction (browser Unsupported) st =
    (st, [CanvasToBlob canvas; Unhandled TypeError]).
Proof. vm_compute. split; reflexivity. Qed.

(** C3: when the debounced text is empty or whitespace-only, the copy
    action shows the notice asking for content and does nothing else: no
    clipboard write, no call on the canvas, no change of state. *)
Theorem C3_copy_blank_text_notice env st :
  blank (debouncedText st) = true ->
  copyAction env st = (st, [Toast "请先输入内容生成二维码"]).
Proof.
  intros Hblank. rewrite copyAction_unfold. unfold copy_log.
  rewrite truthy_trim, Hblank. reflexivity.
Qed.

Lemma C3_copy_blank_text_notice_witness :
  blank (debouncedText (after_typing "  ")) = true
  /\ copyAction (browser Granted) (after_typing "  ") =
       (after_typing "  ", [Toast "请先输入内容生成二维码"]).
Proof.
  split; [vm_compute; reflexivity |].
  apply (@C3_copy_blank_text_notice (browser Granted) (after_typing "  ")).
  vm_compute; reflexivity.
Defined.

(** C4: with non-empty debounced text, the canvas in the view and
    serialisable, and a clipboard that accepts the write, the copy action
    issues exactly one clipboard write, of one item of type image/png
    holding the PNG blob of that canvas, and then shows the success
    notice. *)
Theorem C4_copy_writes_png_once env st canvas :
  debouncedText st <> [] ->
  find_canvas env (view st) = Some canvas ->
  encodes env canvas = true ->
  clipboard env = Granted ->
  copyAction env st =
    (st, [CanvasToBlob canvas; ClipboardWrite [png_item canvas];
          Toast "二维码已复制到剪贴板"])
  /\ List.length (filter is_clipboard_write (snd (copyAction env st))) = 1.
Proof.
  intros _ Hcanvas Henc Hclip.
  destruct (find_canvas_Some env st Hcanvas) as [Htext _].
  rewrite copyAction_unfold. unfold copy_log.
  rewrite Htext, Hcanvas, Henc, Hclip. split; reflexivity.
Qed.

Lemma C4_copy_writes_png_once_witness :
  let st := after_typing "https://example.com" in
  let canvas := qr_of (of_ascii "https://example.com") in
  copyAction (browser Granted) st =
    (st, [CanvasToBlob canvas; ClipboardWrite [png_item canvas];
          Toast "二维码已复制到剪贴板"])
  /\ List.length (filter is_clipboard_write (snd (copyAction (browser Granted) st)))
     = 1.
Proof.
  apply (@C4_copy_writes_png_once (browser Granted)
           (after_typing "https://example.com")
           (qr_of (of_ascii "https://example.com")));
    [vm_compute; discriminate | vm_compute; reflexivity
    | reflexivity | reflexivity].
Defined.

(** C10: when the debounced text is non-empty and the QR container holds
    no canvas (the spinner is on display), or the canvas is there and its
    blob conversion yields null, the copy action is silent: the state is
    as before, no clipboard write is issued and no notice is shown. *)
Theorem C10_copy_silent_without_canvas env st :
  debouncedText st <> [] ->
  (exists container,
      qrCodeRef_current (view st) = Some container
      /\ querySelector_canvas env container = None)
  \/ (exists canvas,
      find_canvas env (view st) = Some canvas /\ encodes env canvas = false) ->
  fst (copyAction env st) = st
  /\ filter is_clipboard_write (snd (copyAction env st)) = []
  /\ filter is_toast (snd (copyAction env st)) = [].
Proof.
  intros _ Hcase. rewrite copyAction_unfold. unfold copy_log. simpl.
  destruct Hcase as [[container [Href Hq]] | [canvas [Hcanvas Henc]]].
  - assert (Hnone : find_canvas env (view st) = None).
    { unfold find_canvas. rewrite Href. exact Hq. }
    assert (Htext : truthy (trim (debouncedText st)) = true).
    { revert Href. unfold qrCodeRef_current, view, render; simpl.
      destruct (truthy (trim (debouncedText st))); [reflexivity | discriminate]. }
    rewrite Htext, Hnone. auto.
  - destruct (find_canvas_Some env st Hcanvas) as [Htext _].
    rewrite Htext, Hcanvas, Henc. auto.
Qed.

Lemma C10_copy_silent_without_canvas_witness :
  (fst (copyAction (browser Granted) (generating "a")) = generating "a"
   /\ filter is_clipboard_write
        (snd (copyAction (browser Granted) (generating "a"))) = []
   /\ filter is_toast
        (snd (copyAction (browser Granted) (generating "a"))) = [])
  /\
  (let env := {| clipboard := Granted;
                 encodes := fun _ => false;
                 encoder := byte_mode_encoder |} in
   fst (copyAction env (after_typing "a")) = after_typing "a"
   /\ filter is_clipboard_write (snd (copyAction env (after_typing "a"))) = []
   /\ filter is_toast (snd (copyAction env (after_typing "a"))) = []).
Proof.
  split.
  - apply (@C10_copy_silent_without_canvas (browser Granted) (generating "a")).
    + vm_compute; discriminate.
    + left. exists Spinner. split; vm_compute; reflexivity.
  - apply (@C10_copy_silent_without_canvas
             {| clipboard := Granted;
                encodes := fun _ => false;
                encoder := byte_mode_encoder |}
             (after_typing "a")).
    + vm_compute; discriminate.
    + right. exists (qr_of (of_ascii "a")). split; vm_compute; reflexivity.
Defined.

(** ** Download *)

(** C5: with a canvas in the view, the download action makes exactly one
    save-triggering call, the click on an anchor whose file name is
    qrcode.png and whose target is the PNG data URI of that canvas. *)
Theorem C5_download_saves_once env st canvas :
  find_canvas env (view st) = Some canvas ->
  downloadAction env st =
    (st, [CanvasToDataURL canvas "image/png";
          AnchorClick {| download := "qrcode.png";
                         href := DataURL canvas "image/png" |}])
  /\ List.length (filter is_save (snd (downloadAction env st))) = 1.
Proof.
  intros Hcanvas. rewrite downloadAction_unfold. unfold download_log.
  rewrite Hcanvas. split; reflexivity.
Qed.

Lemma C5_download_saves_once_witness :
  let st := after_typing "https://example.com" in
  let canvas := qr_of (of_ascii "https://example.com") in
  downloadAction (browser Granted) st =
    (st, [CanvasToDataURL canvas "image/png";
          AnchorClick {| download := "qrcode.png";
                         href := DataURL canvas "image/png" |}])
  /\ List.length (filter is_save (snd (downloadAction (browser Granted) st))) = 1.
Proof.
  apply (@C5_download_saves_once (browser Granted)
           (after_typing "https://example.com")
           (qr_of (of_ascii "https://example.com"))).
  vm_compute; reflexivity.
Defined.

(** ** The rendered QR code *)

(** The canvas that is found is the QR code of the debounced text, which
    then has content and is one the QR library accepts. *)
Lemma find_canvas_qr env st canvas :
  find_canvas env (view st) = Some canvas ->
  blank (debouncedText st) = false
  /\ canvas = qr_of (debouncedText st)
  /\ encoder env (qr_of (debouncedText st)) = None.
Proof.
  unfold find_canvas, qrCodeRef_current, querySelector_canvas, view, render;
    simpl.
  rewrite truthy_trim. destruct (blank (debouncedText st)); [discriminate |].
  destruct (isGenerating st); [discriminate |]. simpl. unfold qr_of.
  destruct (encoder env _); [discriminate |].
  intros Heq. injection Heq as <-. auto.
Qed.

(** A displayable text renders, whatever the flag. *)
Lemma displayable_renders env st :
  displayable env (debouncedText st) = true ->
  render_error env (view st) = None.
Proof.
  unfold displayable, render_error, view, render, qr_of; simpl.
  rewrite truthy_trim. destruct (blank (debouncedText st)); [reflexivity |].
  destruct (isGenerating st); [reflexivity |]. simpl.
  destruct (encoder env _); [discriminate | reflexivity].
Qed.

(** C7, as stated, fails on the code: the user types 1274 letters and
    waits out the quiet period.  The debounced text is non-empty and the
    generation flag is false, yet no QR code is rendered: the text is one
    byte beyond what a QR code holds at level H, the [QRCode] element
    throws, nothing catches the error and the page is unmounted. *)
Lemma C7_counterexample_long_text :
  let r := run (browser Granted) mount [Change long_text; Elapse 800] in
  debouncedText (fst r) = long_text
  /\ truthy (trim (debouncedText (fst r))) = true
  /\ isGenerating (fst r) = false
  /\ render_error (browser Granted) (view (fst r)) = Some RangeError
  /\ find_canvas (browser Granted) (view (fst r)) = None
  /\ snd r = [Unhandled RangeError].
Proof. vm_compute. repeat split. Qed.

(** C7, amended: when the debounced text is non-empty, that is, the test
    [debouncedText.trim()] of line 154 succeeds, the generation flag is
    false and the QR library accepts the text with the props of [Home],
    the page renders and the canvas in it is the QR code of exactly the
    debounced text, at error-correction level H, size 200, with margin,
    white background and black foreground. *)
Theorem C7_rendered_qrcode_props env st :
  truthy (trim (debouncedText st)) = true ->
  isGenerating st = false ->
  encoder env {| value := debouncedText st;
                 size := 200;
                 level := Level_H;
                 includeMargin := true;
                 bgColor := "#ffffff";
                 fgColor := "#000000" |} = None ->
  render_error env (view st) = None
  /\ qrArea (view st) =
       QrContainer
         (QRCode {| value := debouncedText st;
                    size := 200;
                    level := Level_H;
                    includeMargin := true;
                    bgColor := "#ffffff";
                    fgColor := "#000000" |})
  /\ find_canvas env (view st) =
       Some {| value := debouncedText st;
               size := 200;
               level := Level_H;
               includeMargin := true;
               bgColor := "#ffffff";
               fgColor := "#000000" |}.
Proof.
  unfold find_canvas, qrCodeRef_current, querySelector_canvas, render_error,
    view, render; simpl.
  intros -> -> ->. auto.
Qed.

Lemma C7_rendered_qrcode_props_witness :
  render_error (browser Granted) (view (after_typing "https://example.com"))
  = None
  /\ qrArea (view (after_typing "https://example.com")) =
       QrContainer
         (QRCode
            {| value := debouncedText (after_typing "https://example.com");
               size := 200;
               level := Level_H;
               includeMargin := true;
               bgColor := "#ffffff";
               fgColor := "#000000" |})
  /\ find_canvas (browser Granted) (view (after_typing "https://example.com"))
     = Some {| value := debouncedText (after_typing "https://example.com");
               size := 200;
               level := Level_H;
               includeMargin := true;
               bgColor := "#ffffff";
               fgColor := "#000000" |}.
Proof.
  apply (@C7_rendered_qrcode_props (browser Granted)
           (after_typing "https://example.com"));
    vm_compute; reflexivity.
Defined.

(** ** The export actions leave the view state alone *)

(** C9: neither export action changes the state of the page: the input
    text, the debounced text and the rendered view are the same after the
    handler as before.  What the copy action does outside is read the
    canvas, write to the clipboard and show its notices (or leave a
    rejection unhandled), never a download; what the download action does
    outside is read the canvas and trigger the save. *)
Theorem C9_export_actions_keep_state env st :
  (fst (copyAction env st) = st
   /\ inputText (fst (copyAction env st)) = inputText st
   /\ debouncedText (fst (copyAction env st)) = debouncedText st
   /\ view (fst (copyAction env st)) = view st
   /\ forallb copy_call (snd (copyAction env st)) = true)
  /\
  (fst (downloadAction env st) = st
   /\ inputText (fst (downloadAction env st)) = inputText st
   /\ debouncedText (fst (downloadAction env st)) = debouncedText st
   /\ view (fst (downloadAction env st)) = view st
   /\ forallb download_call (snd (downloadAction env st)) = true).
Proof.
  rewrite copyAction_unfold, downloadAction_unfold; simpl.
  split; repeat (split; [reflexivity |]).
  - unfold copy_log.
    destruct (truthy (trim (debouncedText st))); [| reflexivity].
    destruct (find_canvas env (view st)) as [canvas |]; [| reflexivity].
    destruct (encodes env canvas); [destruct (clipboard env) |]; reflexivity.
  - unfold download_log.
    destruct (find_canvas env (view st)); reflexivity.
Qed.

(** ** Debounce *)

Lemma input_set_changed v st :
  v <> inputText st -> input_set v st = rerender (set_inputText v st).
Proof.
  intros Hne. unfold input_set.
  destruct (eq_dec v (inputText st)); [contradiction | reflexivity].
Qed.

(** A change of the input touches neither the debounced text nor the
    publications. *)
Lemma debounced_input_set v st :
  debouncedText (input_set v st) = debouncedText st
  /\ publications (input_set v st) = publications st.
Proof.
  unfold input_set. destruct (eq_dec v (inputText st)); split; reflexivity.
Qed.

Lemma debounce_safe_input_set env v st :
  displayable env (debouncedText st) = true ->
  debounce_safe env (input_set v st).
Proof.
  intros Hd. left. rewrite (proj1 (debounced_input_set v st)). exact Hd.
Qed.

Lemma debounce_safe_tick env st :
  debounce_safe env st -> debounce_safe env (tick st).
Proof.
  unfold debounce_safe, debouncedText. rewrite debounce_tick.
  unfold UseDebounce.expire.
  destruct (UseDebounce.pending (debounce st)) as [[due v] |] eqn:Hp.
  - destruct (due <=? S (now st)); [right; reflexivity |].
    rewrite Hp. intros [Hd | Hnone]; [left; exact Hd | discriminate].
  - rewrite Hp. right. reflexivity.
Qed.

(** A render error stops time; it does not stop the debounce stage short
    of anything when the state is safe: what is published by then is what
    would be published in the end. *)
Lemma debounce_pass env n : forall st,
  debounce_safe env st ->
  debounce (pass env n st) = debounce (elapse n st).
Proof.
  induction n as [| n IH]; intros st Hsafe; simpl; [reflexivity |].
  apply debounce_safe_tick in Hsafe.
  destruct (render_error env (view (tick st))) eqn:Herr.
  - destruct Hsafe as [Hd | Hnone].
    + rewrite (@displayable_renders env (tick st) Hd) in Herr. discriminate.
    + symmetry. apply debounce_elapse_idle. exact Hnone.
  - apply IH. exact Hsafe.
Qed.

Lemma step_quiet env st ev :
  quiet ev = true ->
  fst (step env st ev) =
    match ev with
    | Elapse ms => pass env ms st
    | _ => st
    end.
Proof.
  destruct ev; try discriminate; intros _; simpl.
  - destruct (qrCodeRef_current (view st)); [| reflexivity].
    rewrite copyAction_unfold. reflexivity.
  - destruct (truthy (trim (debouncedText st))); [| reflexivity].
    rewrite copyAction_unfold. reflexivity.
  - destruct (truthy (trim (debouncedText st))); [| reflexivity].
    rewrite downloadAction_unfold. reflexivity.
  - reflexivity.
Qed.


(** While the input is left alone the debounce stage goes its way, also
    when a render error unmounts the page in between. *)
Lemma debounce_run_quiet env evs : forall st,
  forallb quiet evs = true ->
  debounce_safe env st ->
  debounce (fst (run env st evs)) = debounce (elapse (duration evs) st).
Proof.
  induction evs as [| ev evs IH]; intros st Hq Hsafe; [reflexivity |].
  simpl in Hq. apply andb_prop in Hq. destruct Hq as [Hev Hrest].
  rewrite run_cons, (@step_quiet env st ev Hev).
  assert (Hidle : forall st0 k,
             debounce_safe env st0 ->
             render_error env (view st0) <> None ->
             debounce (elapse k st0) = debounce st0).
  { intros st0 k [Hd | Hnone] Herr;
      [rewrite (@displayable_renders env st0 Hd) in Herr; contradiction
      | apply debounce_elapse_idle; exact Hnone]. }
  destruct ev; try discriminate Hev.
  1-3: destruct (render_error env (view st)) eqn:Herr; simpl fst;
    [symmetry; apply Hidle; [exact Hsafe | rewrite Herr; discriminate]
    | apply IH; assumption].
  assert (Hsafe' : debounce_safe env (pass env ms st))
    by (apply pass_preserves; auto using debounce_safe_tick).
  simpl duration. rewrite elapse_add.
  destruct (render_error env (view (pass env ms st))) eqn:Herr; simpl fst.
  - pose proof (@debounce_pass env ms st Hsafe) as Hpass.
    assert (Hnone : UseDebounce.pending (debounce (pass env ms st)) = None).
    { destruct Hsafe' as [Hd | Hnone]; [| exact Hnone].
      rewrite (@displayable_renders env _ Hd) in Herr. discriminate. }
    rewrite debounce_elapse_idle; [exact Hpass |].
    rewrite <- Hpass. exact Hnone.
  - rewrite <- (@pass_up env ms st Herr). apply IH; assumption.
Qed.

(** Where every render on the way succeeds, quiet events only let time
    pass. *)
Lemma run_quiet_rendering env evs rest : forall st,
  forallb quiet evs = true ->
  (forall j, j <= duration evs ->
             render_error env (view (elapse j st)) = None) ->
  fst (run env st (evs ++ rest)) =
  fst (run env (elapse (duration evs) st) rest).
Proof.
  induction evs as [| ev evs IH]; intros st Hq Hok; [reflexivity |].
  simpl in Hq. apply andb_prop in Hq. destruct Hq as [Hev Hrest].
  rewrite <- app_comm_cons, run_cons, (@step_quiet env st ev Hev).
  destruct ev; try discriminate Hev.
  1-3: rewrite (Hok 0 (Nat.le_0_l _) : render_error env (view st) = None);
    simpl fst; apply IH; assumption.
  simpl duration in *.
  rewrite pass_rendering by (intros j Hj; apply Hok; lia).
  rewrite (Hok ms ltac:(lia)). simpl fst. rewrite elapse_add.
  apply IH; [exact Hrest |].
  intros j Hj. rewrite <- elapse_add. apply Hok. lia.
Qed.

(** Two changes of the input less than a quiet period apart: whatever
    time passes afterwards, either nothing has been published or the one
    value published is the second. *)
Lemma debounce_coalesces st s1 s2 d n :
  s1 <> inputText st -> d < 800 ->
  debounce (elapse d (input_set s1 st)) = debounce (input_set s1 st)
  /\
  let st' := elapse n (input_set s2 (elapse d (input_set s1 st))) in
  ((debouncedText st' = debouncedText st
    /\ publications st' = publications st)
   \/ (debouncedText st' = s2
       /\ publications st' = publications st ++ [s2]))
  /\ (800 <= n ->
      debouncedText st' = s2 /\ publications st' = publications st ++ [s2]).
Proof.
  intros Hs1 Hd. rewrite (@input_set_changed s1 st Hs1).
  set (st1 := rerender (set_inputText s1 st)).
  assert (Hp1 : UseDebounce.pending (debounce st1) = Some (now st + 800, s1))
    by reflexivity.
  assert (Hpub1 : publications st1 = publications st) by reflexivity.
  assert (Hdeb1 : debouncedText st1 = debouncedText st) by reflexivity.
  assert (Hd2 : debounce (elapse d st1) = debounce st1).
  { apply debounce_elapse_before with (due := now st + 800) (v := s1);
      [exact Hp1 | simpl; lia]. }
  split; [exact Hd2 |].
  assert (Hn2 : now (elapse d st1) = now st + d)
    by (rewrite now_elapse; reflexivity).
  assert (Hi2 : inputText (elapse d st1) = s1)
    by (rewrite inputText_elapse; reflexivity).
  set (st2 := elapse d st1) in *.
  unfold input_set, publications, debouncedText in *.
  destruct (eq_dec s2 (inputText st2)) as [Heq | Hne].
  - rewrite Hi2 in Heq. subst s2.
    assert (Hp2 : UseDebounce.pending (debounce st2) = Some (now st + 800, s1))
      by (rewrite Hd2; exact Hp1).
    destruct (Nat.lt_ge_cases (now st2 + n) (now st + 800)) as [Hlt | Hge].
    + rewrite (@debounce_elapse_before n st2 _ _ Hp2 Hlt), Hd2.
      split; [left; split; assumption | intros; lia].
    + rewrite (@debounce_elapse_after n st2 _ _ Hp2) by lia.
      simpl. rewrite Hd2, Hpub1. auto.
  - set (st3 := rerender (set_inputText s2 st2)).
    assert (Hp3 : UseDebounce.pending (debounce st3)
                  = Some (now st2 + 800, s2)) by reflexivity.
    assert (Hd3 : debounce st3
                  = UseDebounce.observe (now st2) 800 s2 (debounce st1))
      by (simpl; rewrite Hd2; reflexivity).
    destruct (Nat.lt_ge_cases n 800) as [Hlt | Hge].
    + rewrite (@debounce_elapse_before n st3 _ _ Hp3) by (simpl; lia).
      rewrite Hd3. simpl.
      split; [left; split; assumption | intros; lia].
    + rewrite (@debounce_elapse_after n st3 _ _ Hp3) by (simpl; lia).
      rewrite Hd3. simpl. rewrite ?Hpub1. auto.
Qed.

(** C6: on a page whose debounce slot is in order and whose text on
    display is displayable, (1) after the input was set to [s], as long
    as less than 800ms have passed the debounced text and the publications
    are what they were (for a real change of the input), and once 800ms or
    more have passed with no further input the debounced text is [s];
    (2) when the input changes to [s1] and, less than 800ms later, to
    [s2], then at any later time without further input either nothing has
    been published and the debounced text is what it was, or the one
    value published since, and the debounced text, is [s2], never [s1];
    from 800ms after the second change on it is the latter.  Clicks on
    the export controls may come in between.  (A text the QR library
    refuses unmounts the page by its very publication; the state is then
    the one of that moment.) *)
Theorem C6_debounce_publishes_final_value env st :
  debounce_inv st ->
  displayable env (debouncedText st) = true ->
  (forall s evs,
      forallb quiet evs = true ->
      let st' := fst (run env st (Change s :: evs)) in
      (s <> inputText st -> duration evs < 800 ->
       debouncedText st' = debouncedText st
       /\ publications st' = publications st)
      /\ (800 <= duration evs -> debouncedText st' = s))
  /\
  (forall s1 s2 evs1 evs2,
      s1 <> inputText st ->
      forallb quiet evs1 = true -> duration evs1 < 800 ->
      forallb quiet evs2 = true ->
      let st' := fst (run env st (Change s1 :: evs1 ++ Change s2 :: evs2)) in
      ((debouncedText st' = debouncedText st
        /\ publications st' = publications st)
       \/ (debouncedText st' = s2
           /\ publications st' = publications st ++ [s2]))
      /\ (800 <= duration evs2 ->
          debouncedText st' = s2
          /\ publications st' = publications st ++ [s2])).
Proof.
  intros Hinv Hdisp.
  assert (Hfirst : forall s evs,
             forallb quiet evs = true ->
             debounce (fst (run env st (Change s :: evs)))
             = debounce (elapse (duration evs) (input_set s st))).
  { intros s evs Hq. rewrite run_cons, step_Change. simpl fst.
    pose proof (@debounce_safe_input_set env s st Hdisp) as Hsafe.
    destruct (render_error env (view (input_set s st))) eqn:Herr; simpl fst.
    - destruct Hsafe as [Hd | Hnone];
        [rewrite (@displayable_renders env _ Hd) in Herr; discriminate |].
      symmetry. apply debounce_elapse_idle. exact Hnone.
    - apply debounce_run_quiet; assumption. }
  split.
  - intros s evs Hq st'.
    assert (Heq : debounce st'
                  = debounce (elapse (duration evs) (input_set s st)))
      by (apply Hfirst; exact Hq).
    unfold debouncedText, publications. rewrite Heq. split.
    + intros Hs Hlt. rewrite (@input_set_changed s st Hs).
      rewrite (@debounce_elapse_before (duration evs) _ (now st + 800) s);
        [split; reflexivity | reflexivity | simpl; lia].
    + intros Hn.
      pose proof (@debounce_inv_input_set s st Hinv) as Hinv'.
      destruct (@elapse_settles _ (duration evs) Hinv' Hn) as [_ Hs].
      unfold debouncedText in Hs. rewrite Hs. apply inputText_input_set.
  - intros s1 s2 evs1 evs2 Hs1 Hq1 Hd Hq2 st'.
    destruct (@debounce_coalesces st s1 s2 (duration evs1) (duration evs2)
                Hs1 Hd) as [Hheld Hco].
    assert (Hup : forall j, j <= duration evs1 ->
               render_error env (view (elapse j (input_set s1 st))) = None).
    { intros j Hj. apply displayable_renders. unfold debouncedText.
      rewrite (@input_set_changed s1 st Hs1).
      rewrite (@debounce_elapse_before j _ (now st + 800) s1);
        [exact Hdisp | reflexivity | simpl; lia]. }
    assert (Heq : debounce st'
                  = debounce (elapse (duration evs2)
                                (input_set s2
                                   (elapse (duration evs1)
                                      (input_set s1 st))))).
    { unfold st'. rewrite run_cons, step_Change. simpl fst.
      rewrite (Hup 0 (Nat.le_0_l _)
               : render_error env (view (input_set s1 st)) = None).
      simpl fst.
      rewrite (@run_quiet_rendering env evs1 _ _ Hq1 Hup).
      set (st2 := elapse (duration evs1) (input_set s1 st)).
      assert (Hdisp2 : displayable env (debouncedText st2) = true).
      { unfold debouncedText, st2. rewrite Hheld.
        rewrite (@input_set_changed s1 st Hs1). exact Hdisp. }
      rewrite run_cons, step_Change. simpl fst.
      pose proof (@debounce_safe_input_set env s2 st2 Hdisp2) as Hsafe.
      destruct (render_error env (view (input_set s2 st2))) eqn:Herr;
        simpl fst.
      - destruct Hsafe as [Hd2 | Hnone];
          [rewrite (@displayable_renders env _ Hd2) in Herr; discriminate |].
        symmetry. apply debounce_elapse_idle. exact Hnone.
      - apply debounce_run_quiet; assumption. }
    unfold debouncedText, publications in *. rewrite Heq. exact Hco.
Qed.

Lemma C6_debounce_publishes_final_value_witness :
  (let st' := fst (run (browser Granted) mount
                     [Change (of_ascii "https://example.com"); Elapse 500;
                      ClickCopy; Elapse 299]) in
   debouncedText st' = debouncedText mount
   /\ publications st' = publications mount)
  /\
  debouncedText
    (fst (run (browser Granted) mount
            [Change (of_ascii "https://example.com"); Elapse 500; ClickCopy;
             Elapse 300]))
  = of_ascii "https://example.com"
  /\
  (let st' := fst (run (browser Granted) mount
                     (Change (of_ascii "a")
                      :: [Elapse 100]
                      ++ Change (of_ascii "ab") :: [Elapse 800])) in
   debouncedText st' = of_ascii "ab"
   /\ publications st' = publications mount ++ [of_ascii "ab"]).
Proof.
  destruct (@C6_debounce_publishes_final_value (browser Granted) mount
              (run_debounce_inv (browser Granted) []) eq_refl)
    as [Hsettle Hcoalesce].
  split; [| split].
  - apply (Hsettle (of_ascii "https://example.com")
             [Elapse 500; ClickCopy; Elapse 299]);
      [reflexivity | discriminate | simpl; lia].
  - apply (Hsettle (of_ascii "https://example.com")
             [Elapse 500; ClickCopy; Elapse 300]);
      [reflexivity | simpl; lia].
  - apply (Hcoalesce (of_ascii "a") (of_ascii "ab") [Elapse 100] [Elapse 800]);
      [discriminate | reflexivity | simpl; lia | reflexivity | simpl; lia].
Defined.

(** ** Clearing the input *)

(** C8: on a page whose debounce slot is in order and whose text on
    display is displayable, Ctrl+Enter in the text area and a click on
    the clear control both leave the input text empty; 800ms or more
    later, with no further input, the debounced text is empty, the page
    is up, holds no canvas and shows the placeholder. *)
Theorem C8_clear_reverts_to_placeholder env st ev :
  debounce_inv st ->
  displayable env (debouncedText st) = true ->
  ev = KeyDown true "Enter" \/ ev = ClickClear ->
  inputText (fst (step env st ev)) = []
  /\ forall evs,
       forallb quiet evs = true ->
       800 <= duration evs ->
       debouncedText (fst (run env st (ev :: evs))) = []
       /\ render_error env (view (fst (run env st (ev :: evs)))) = None
       /\ find_canvas env (view (fst (run env st (ev :: evs)))) = None
       /\ qrArea (view (fst (run env st (ev :: evs)))) = Placeholder.
Proof.
  intros Hinv Hdisp Hev.
  assert (Hstep : fst (step env st ev) = input_set [] st).
  { destruct Hev as [-> | ->];
      [rewrite step_ctrl_enter; reflexivity | apply step_ClickClear_state]. }
  split; [rewrite Hstep; apply inputText_input_set |].
  intros evs Hq Hn.
  assert (Hdeb : debouncedText (fst (run env st (ev :: evs))) = []).
  { rewrite run_cons, Hstep.
    pose proof (@debounce_safe_input_set env [] st Hdisp) as Hsafe.
    pose proof (@debounce_inv_input_set [] st Hinv) as Hinv'.
    destruct (@elapse_settles _ (duration evs) Hinv' Hn) as [_ Hs].
    rewrite inputText_input_set in Hs.
    assert (Hup : render_error env (view (input_set [] st)) = None).
    { apply displayable_renders.
      rewrite (proj1 (debounced_input_set [] st)). exact Hdisp. }
    rewrite Hup. simpl fst. unfold debouncedText in *.
    rewrite (@debounce_run_quiet env evs _ Hq Hsafe). exact Hs. }
  generalize dependent (fst (run env st (ev :: evs))). intros st' Hdeb.
  unfold find_canvas, qrCodeRef_current, render_error, view, render; simpl.
  rewrite Hdeb. auto.
Qed.

Lemma C8_clear_reverts_to_placeholder_witness :
  (inputText (after_typing "a") = of_ascii "a"
   /\ find_canvas (browser Granted) (view (after_typing "a"))
      = Some (qr_of (of_ascii "a")))
  /\
  (inputText (fst (step (browser Granted) (after_typing "a")
                     (KeyDown true "Enter"))) = []
   /\ qrArea (view (fst (run (browser Granted) (after_typing "a")
                           [KeyDown true "Enter"; Elapse 800])))
      = Placeholder)
  /\
  (inputText (fst (step (browser Granted) (after_typing "a") ClickClear)) = []
   /\ qrArea (view (fst (run (browser Granted) (after_typing "a")
                           [ClickClear; Elapse 800])))
      = Placeholder).
Proof.
  assert (Hinv : debounce_inv (after_typing "a"))
    by apply run_debounce_inv.
  assert (Hdisp : displayable (browser Granted)
                    (debouncedText (after_typing "a")) = true)
    by (vm_compute; reflexivity).
  split; [split; vm_compute; reflexivity |].
  split.
  - destruct (@C8_clear_reverts_to_placeholder (browser Granted)
                (after_typing "a") (KeyDown true "Enter") Hinv Hdisp
                (or_introl eq_refl)) as [Hin Hlater].
    split; [exact Hin |].
    apply (Hlater [Elapse 800]); [reflexivity | simpl; lia].
  - destruct (@C8_clear_reverts_to_placeholder (browser Granted)
                (after_typing "a") ClickClear Hinv Hdisp
                (or_intror eq_refl)) as [Hin Hlater].
    split; [exact Hin |].
    apply (Hlater [Elapse 800]); [reflexivity | simpl; lia].
Defined.
(** * Further properties of the page *)

(** ** Logs of steps and runs *)

(** What one event can add to the log. *)
Lemma step_log_cases env st ev :
  snd (step env st ev) = []
  \/ snd (step env st ev) = [PreventDefault]
  \/ (truthy (trim (debouncedText st)) = true
      /\ snd (step env st ev) = copy_log env st)
  \/ snd (step env st ev) = download_log env st.
Proof.
  destruct ev as [v | ctrlKey key | | | | | ms].
  - left. reflexivity.
  - unfold step, handleKeyDown.
    destruct (ctrlKey && String.eqb key "Enter"); [right |]; left; reflexivity.
  - unfold step, handleClear. rewrite dispatch_setInputText.
    destruct (clearButton (view st)); left; reflexivity.
  - unfold step, qrCodeRef_current, view, render; simpl qrArea.
    destruct (truthy (trim (debouncedText st))) eqn:Htext; [| left; reflexivity].
    right; right; left. rewrite copyAction_unfold. auto.
  - unfold step, view, render; simpl actionButtons.
    destruct (truthy (trim (debouncedText st))) eqn:Htext; [| left; reflexivity].
    right; right; left. rewrite copyAction_unfold. auto.
  - unfold step, view, render; simpl actionButtons.
    destruct (truthy (trim (debouncedText st))); [| left; reflexivity].
    right; right; right. rewrite downloadAction_unfold. reflexivity.
  - left. reflexivity.
Qed.

(** An entry in the log of a run is a call made by one of its steps, or
    the error of the render that ended it. *)
Lemma run_log_In env evs : forall st e,
  In e (snd (run env st evs)) ->
  (exists st' ev, In e (snd (step env st' ev)))
  \/ (exists st' err,
        e = Unhandled err /\ render_error env (view st') = Some err).
Proof.
  induction evs as [| ev evs IH]; intros st e Hin; [destruct Hin |].
  rewrite run_cons in Hin.
  destruct (render_error env (view (fst (step env st ev)))) as [err |] eqn:Herr;
    simpl in Hin; apply in_app_or in Hin; destruct Hin as [Hin | Hin].
  - left. exists st, ev. exact Hin.
  - destruct Hin as [<- | []]. right. eauto.
  - left. exists st, ev. exact Hin.
  - eapply IH. exact Hin.
Qed.

(** The error of a render comes from the QR library, on the QR code of a
    text with content. *)
Lemma render_error_encoder env st err :
  render_error env (view st) = Some err ->
  blank (debouncedText st) = false
  /\ encoder env (qr_of (debouncedText st)) = Some err.
Proof.
  unfold render_error, view, render, qr_of; simpl. rewrite truthy_trim.
  destruct (blank (debouncedText st)); [discriminate |].
  destruct (isGenerating st); [discriminate | auto].
Qed.

(** Each call of the copy action, once past its guard. *)
Lemma copy_log_calls env st e :
  truthy (trim (debouncedText st)) = true ->
  In e (copy_log env st) ->
  match e with
  | Toast message =>
      message = "二维码已复制到剪贴板"%string /\ clipboard env = Granted
  | CanvasToBlob canvas => find_canvas env (view st) = Some canvas
  | ClipboardWrite items =>
      exists canvas,
        find_canvas env (view st) = Some canvas /\ items = [png_item canvas]
  | Unhandled _ => clipboard env <> Granted
  | _ => False
  end.
Proof.
  intros Htext. unfold copy_log. rewrite Htext.
  destruct (find_canvas env (view st)) as [canvas |]; [| intros []].
  destruct (encodes env canvas); [destruct (clipboard env) |]; simpl;
    intros Hin;
    repeat (destruct Hin as [<- | Hin]; [simpl; eauto; try discriminate |]);
    try destruct Hin.
Qed.

Lemma download_log_calls env st e :
  In e (download_log env st) ->
  exists canvas,
    find_canvas env (view st) = Some canvas
    /\ (e = CanvasToDataURL canvas "image/png"
        \/ e = AnchorClick {| download := "qrcode.png";
                              href := DataURL canvas "image/png" |}).
Proof.
  unfold download_log.
  destruct (find_canvas env (view st)) as [canvas |]; [| intros []].
  intros [<- | [<- | []]]; eauto.
Qed.

(** ** What the view shows *)

(** X4: a click on the QR container does what a click on the copy button
    does, in every state: the two controls are in the view together and
    share the handler. *)
Theorem X4_click_on_qr_is_copy env st :
  step env st ClickQr = step env st ClickCopy.
Proof.
  unfold step, qrCodeRef_current, view, render; simpl.
  destruct (truthy (trim (debouncedText st))); reflexivity.
Qed.

(** ** The text area *)



(** X3: [handleKeyDown] acts on Ctrl+Enter only.  The default action of a
    key press is prevented exactly when Ctrl is held and the key is Enter;
    any other key press, plain Enter included, changes nothing and calls
    nothing. *)
Theorem X3_only_ctrl_enter_is_handled env st ctrlKey key :
  (In PreventDefault (snd (step env st (KeyDown ctrlKey key)))
   <-> ctrlKey = true /\ key = "Enter"%string)
  /\ (ctrlKey = false \/ key <> "Enter"%string ->
      step env st (KeyDown ctrlKey key) = (st, [])).
Proof.
  unfold step, handleKeyDown.
  destruct ctrlKey; simpl andb.
  - destruct (String.eqb_spec key "Enter") as [-> | Hne].
    + split; [split; [auto | intros _; left; reflexivity] |].
      intros [Hc | Hk]; [discriminate | contradiction].
    + split; [split; [intros [] | intros [_ Hk]; contradiction] |].
      reflexivity.
  - split; [split; [intros [] | intros [Hc _]; discriminate] |].
    reflexivity.
Qed.

Lemma X3_only_ctrl_enter_is_handled_witness :
  step (browser Granted) (after_typing "a") (KeyDown false "Enter")
  = (after_typing "a", [])
  /\ step (browser Granted) (after_typing "a") (KeyDown true "a")
     = (after_typing "a", []).
Proof.
  split.
  - apply (proj2 (@X3_only_ctrl_enter_is_handled (browser Granted)
                    (after_typing "a") false "Enter")).
    left. reflexivity.
  - apply (proj2 (@X3_only_ctrl_enter_is_handled (browser Granted)
                    (after_typing "a") true "a")).
    right. discriminate.
Defined.

(** X2: clearing shows at once and is idempotent.  After the shortcut or
    the clear control the text area is empty and the clear control is out
    of the view without waiting for the debounce; clearing again, either
    way, leaves the state as it is (the pending publication is not
    rescheduled). *)
Theorem X2_clear_is_immediate_and_idempotent env st ev ev' :
  clears ev -> clears ev' ->
  let st1 := fst (step env st ev) in
  textarea_value (view st1) = []
  /\ clearButton (view st1) = false
  /\ fst (step env st1 ev') = st1.
Proof.
  assert (Hclear : forall st0 ev0,
             clears ev0 -> fst (step env st0 ev0) = input_set [] st0).
  { intros st0 ev0 [-> | ->];
      [rewrite step_ctrl_enter; reflexivity | apply step_ClickClear_state]. }
  intros Hev Hev'. cbv zeta. rewrite (Hclear _ _ Hev'), (Hclear _ _ Hev).
  pose proof (inputText_input_set [] st) as Hin.
  unfold view, render; simpl textarea_value; simpl clearButton.
  rewrite Hin. repeat split.
  unfold input_set at 1. rewrite Hin.
  destruct (eq_dec [] []) as [_ | Hne]; [reflexivity | contradiction].
Qed.

Lemma X2_clear_is_immediate_and_idempotent_witness :
  let st1 := fst (step (browser Granted) (after_typing "a") ClickClear) in
  textarea_value (view st1) = []
  /\ clearButton (view st1) = false
  /\ fst (step (browser Granted) st1 (KeyDown true "Enter")) = st1.
Proof.
  apply (@X2_clear_is_immediate_and_idempotent (browser Granted)
           (after_typing "a") ClickClear (KeyDown true "Enter"));
    [right | left]; reflexivity.
Defined.

(** ** Download without a canvas *)

(** X10: with no canvas in the view (placeholder or spinner) the download
    handler does nothing: no save is triggered, nothing is read, no notice
    is shown, the state is as before. *)
Theorem X10_download_without_canvas_is_noop env st :
  find_canvas env (view st) = None ->
  downloadAction env st = (st, []).
Proof.
  intros Hnone. rewrite downloadAction_unfold. unfold download_log.
  rewrite Hnone. reflexivity.
Qed.

Lemma X10_download_without_canvas_is_noop_witness :
  downloadAction (browser Granted) (generating "a") = (generating "a", [])
  /\ downloadAction (browser Granted) mount = (mount, []).
Proof.
  split.
  - apply (@X10_download_without_canvas_is_noop (browser Granted)
             (generating "a")).
    vm_compute; reflexivity.
  - apply (@X10_download_without_canvas_is_noop (browser Granted) mount).
    vm_compute; reflexivity.
Defined.

(** ** Whole runs *)

(** X5: the notice that asks for content cannot be brought up through
    the page: both controls that copy are in the view only when the
    debounced text has content, so from any state no sequence of events
    shows it. *)
Theorem X5_guard_notice_unreachable env st evs :
  ~ In (Toast "请先输入内容生成二维码") (snd (run env st evs)).
Proof.
  intros Hin. apply run_log_In in Hin.
  destruct Hin as [[st' [ev Hin]] | [st' [err [Heq _]]]]; [| discriminate Heq].
  destruct (step_log_cases env st' ev) as [H0 | [H1 | [[Htext Hc] | Hd]]].
  - rewrite H0 in Hin. destruct Hin.
  - rewrite H1 in Hin. destruct Hin as [Heq | []]. discriminate Heq.
  - rewrite Hc in Hin. apply (copy_log_calls env st' _ Htext) in Hin.
    destruct Hin as [Hmsg _]. discriminate Hmsg.
  - rewrite Hd in Hin. apply download_log_calls in Hin.
    destruct Hin as [canvas [_ [Heq | Heq]]]; discriminate Heq.
Qed.

(** X6: success is reported once per granted write.  In any run the
    number of success notices is the number of clipboard writes when the
    clipboard grants them, and zero when it refuses them or is missing. *)
Theorem X6_success_notice_per_granted_write env st evs :
  List.length (filter is_success (snd (run env st evs))) =
    match clipboard env with
    | Granted =>
        List.length (filter is_clipboard_write (snd (run env st evs)))
    | Denied | Unsupported => 0
    end.
Proof.
  revert st. induction evs as [| ev evs IH]; intros st.
  - simpl. destruct (clipboard env); reflexivity.
  - assert (Hstep :
      List.length (filter is_success (snd (step env st ev))) =
        match clipboard env with
        | Granted =>
            List.length (filter is_clipboard_write (snd (step env st ev)))
        | Denied | Unsupported => 0
        end).
    { destruct (step_log_cases env st ev) as [-> | [-> | [[_ ->] | ->]]].
      - simpl. destruct (clipboard env); reflexivity.
      - simpl. destruct (clipboard env); reflexivity.
      - unfold copy_log.
        destruct (truthy (trim (debouncedText st)));
          [| destruct (clipboard env); reflexivity].
        destruct (find_canvas env (view st)) as [canvas |];
          [| destruct (clipboard env); reflexivity].
        destruct (encodes env canvas); destruct (clipboard env); reflexivity.
      - unfold download_log.
        destruct (find_canvas env (view st)); destruct (clipboard env);
          reflexivity. }
    rewrite run_cons.
    destruct (render_error env (view (fst (step env st ev)))); simpl snd;
      rewrite !filter_app, !length_app, ?IH, Hstep;
      destruct (clipboard env); simpl; lia.
Qed.

(** X7: with a clipboard that grants writes, an error that a run leaves
    unhandled is one the QR library throws on the QR code of a text with
    content: the render error that unmounts the page (so where the
    library refuses no such text, no run leaves any). *)
Theorem X7_unhandled_only_from_encoder env st evs e :
  clipboard env = Granted ->
  In (Unhandled e) (snd (run env st evs)) ->
  exists text,
    blank text = false /\ encoder env (qr_of text) = Some e.
Proof.
  intros Hclip Hin. apply run_log_In in Hin.
  destruct Hin as [[st' [ev Hin]] | [st' [err [Heq Herr]]]].
  - exfalso.
    destruct (step_log_cases env st' ev) as [H0 | [H1 | [[Htext Hc] | Hd]]].
    + rewrite H0 in Hin. destruct Hin.
    + rewrite H1 in Hin. destruct Hin as [Heq | []]. discriminate Heq.
    + rewrite Hc in Hin. apply (copy_log_calls env st' _ Htext) in Hin.
      contradiction.
    + rewrite Hd in Hin. apply download_log_calls in Hin.
      destruct Hin as [canvas [_ [Heq | Heq]]]; discriminate Heq.
  - injection Heq as ->. apply render_error_encoder in Herr.
    exists (debouncedText st'). exact Herr.
Qed.

Lemma X7_unhandled_only_from_encoder_witness :
  exists text,
    blank text = false
    /\ encoder (browser Granted) (qr_of text) = Some RangeError.
Proof.
  apply (@X7_unhandled_only_from_encoder (browser Granted) mount
           [Change long_text; Elapse 800; ClickCopy]).
  - reflexivity.
  - vm_compute. left. reflexivity.
Defined.

(** X8: whatever a run writes to the clipboard is one item of type
    image/png holding the PNG blob of a QR code: the canvas of a text with
    content, at level H, size 200, with margin, black on white. *)
Theorem X8_clipboard_holds_one_png_qr env st evs items :
  In (ClipboardWrite items) (snd (run env st evs)) ->
  exists text,
    blank text = false /\ items = [png_item (qr_of text)].
Proof.
  intros Hin. apply run_log_In in Hin.
  destruct Hin as [[st' [ev Hin]] | [st' [err [Heq _]]]]; [| discriminate Heq].
  destruct (step_log_cases env st' ev) as [H0 | [H1 | [[Htext Hc] | Hd]]].
  - rewrite H0 in Hin. destruct Hin.
  - rewrite H1 in Hin. destruct Hin as [Heq | []]. discriminate Heq.
  - rewrite Hc in Hin. apply (copy_log_calls env st' _ Htext) in Hin.
    destruct Hin as [canvas [Hcanvas ->]].
    apply find_canvas_qr in Hcanvas. destruct Hcanvas as [Hb [-> _]].
    exists (debouncedText st'). auto.
  - rewrite Hd in Hin. apply download_log_calls in Hin.
    destruct Hin as [canvas [_ [Heq | Heq]]]; discriminate Heq.
Qed.

Lemma X8_clipboard_holds_one_png_qr_witness :
  exists text,
    blank text = false
    /\ [png_item (qr_of (of_ascii "a"))] = [png_item (qr_of text)].
Proof.
  apply (@X8_clipboard_holds_one_png_qr (browser Denied) mount
           [Change (of_ascii "a"); Elapse 800; ClickCopy]).
  vm_compute. right. left. reflexivity.
Defined.

(** X9: whatever a run saves is a file named qrcode.png whose content is
    the PNG data URI of a QR code: the canvas of a text with content, at
    level H, size 200, with margin, black on white. *)
Theorem X9_download_is_named_png_qr env st evs link :
  In (AnchorClick link) (snd (run env st evs)) ->
  download link = "qrcode.png"%string
  /\ exists text,
       blank text = false /\ href link = DataURL (qr_of text) "image/png".
Proof.
  intros Hin. apply run_log_In in Hin.
  destruct Hin as [[st' [ev Hin]] | [st' [err [Heq _]]]]; [| discriminate Heq].
  destruct (step_log_cases env st' ev) as [H0 | [H1 | [[Htext Hc] | Hd]]].
  - rewrite H0 in Hin. destruct Hin.
  - rewrite H1 in Hin. destruct Hin as [Heq | []]. discriminate Heq.
  - rewrite Hc in Hin. apply (copy_log_calls env st' _ Htext) in Hin.
    destruct Hin.
  - rewrite Hd in Hin. apply download_log_calls in Hin.
    destruct Hin as [canvas [Hcanvas [Heq | Heq]]]; [discriminate Heq |].
    injection Heq as ->.
    apply find_canvas_qr in Hcanvas. destruct Hcanvas as [Hb [-> _]].
    split; [reflexivity |]. exists (debouncedText st'). auto.
Qed.

Lemma X9_download_is_named_png_qr_witness :
  download {| download := "qrcode.png";
              href := DataURL (qr_of (of_ascii "a")) "image/png" |}
  = "qrcode.png"%string
  /\ exists text,
       blank text = false
       /\ href {| download := "qrcode.png";
                  href := DataURL (qr_of (of_ascii "a")) "image/png" |}
          = DataURL (qr_of text) "image/png".
Proof.
  apply (@X9_download_is_named_png_qr (browser Granted) mount
           [Change (of_ascii "a"); Elapse 800; ClickDownload]).
  vm_compute. right. left. reflexivity.
Defined.

(** ** Start-up *)

Lemma existsb_eqb_In token classList :
  existsb (String.eqb token) classList = true <-> In token classList.
Proof.
  rewrite existsb_exists. split.
  - intros [c [Hin Heq]]. apply String.eqb_eq in Heq. subst c. exact Hin.
  - intros Hin. exists token. split; [exact Hin | apply String.eqb_refl].
Qed.

Lemma classList_add_In token classList c :
  In c (classList_add token classList) <-> In c classList \/ c = token.
Proof.
  unfold classList_add.
  destruct (existsb (String.eqb token) classList) eqn:He.
  - apply existsb_eqb_In in He. split; [auto | intros [Hin | ->]; assumption].
  - rewrite in_app_iff. simpl. intuition congruence.
Qed.

(** X12: start-up puts the class dark on the root element exactly when
    the system prefers dark (or the class was there already); it removes
    no class and adds no other, keeps the list free of duplicates, and
    running it again changes nothing. *)
Theorem X12_dark_class_follows_preference prefersDarkMode classList :
  (In "dark"%string (applyDarkMode prefersDarkMode classList)
   <-> prefersDarkMode = true \/ In "dark"%string classList)
  /\ (forall c,
        c <> "dark"%string ->
        (In c (applyDarkMode prefersDarkMode classList) <-> In c classList))
  /\ (NoDup classList -> NoDup (applyDarkMode prefersDarkMode classList))
  /\ applyDarkMode prefersDarkMode (applyDarkMode prefersDarkMode classList)
     = applyDarkMode prefersDarkMode classList.
Proof.
  unfold applyDarkMode. destruct prefersDarkMode.
  - repeat split.
    + intros _. left. reflexivity.
    + intros _. apply classList_add_In. right. reflexivity.
    + rewrite classList_add_In. intros [Hin | Heq]; [exact Hin | contradiction].
    + intros Hin. apply classList_add_In. left. exact Hin.
    + intros Hnd. unfold classList_add.
      destruct (existsb (String.eqb "dark") classList) eqn:He; [exact Hnd |].
      apply NoDup_rev in Hnd. rewrite <- (rev_involutive (classList ++ _)).
      apply NoDup_rev. rewrite rev_app_distr. simpl. constructor; [| exact Hnd].
      rewrite <- in_rev. intros Hin. apply existsb_eqb_In in Hin. congruence.
    + unfold classList_add at 1.
      assert (He : existsb (String.eqb "dark")
                     (classList_add "dark" classList) = true).
      { apply existsb_eqb_In, classList_add_In. right. reflexivity. }
      rewrite He. reflexivity.
  - repeat split; try tauto.
    intros [Hf | Hin]; [discriminate | exact Hin].
Qed.

Lemma X12_dark_class_follows_preference_witness :
  NoDup (applyDarkMode true ["app"%string])
  /\ (In "app"%string (applyDarkMode true ["app"%string])
      <-> In "app"%string ["app"%string]).
Proof.
  destruct (@X12_dark_class_follows_preference true ["app"%string])
    as [_ [Hkeep [Hnodup _]]].
  split.
  - apply Hnodup. repeat constructor. intros [].
  - apply Hkeep. discriminate.
Defined.
